(** * AndroidEnvironmentSetup: requirements of the Android setup profile

    Shallow embedding of [src/common/AndroidEnvironmentSetup.ts].

    The collaborators the file imports ([AndroidUtils], [PlatformConfig],
    the message catalog behind [Messages.getMessage], and the directive
    conversions of Node's [util.format]) are not part of this file; they are
    gathered in the record [Env] and every call to one of them is recorded
    as an [event].  Code runs in a small reader/writer monad [M]: it reads
    the environment and appends the calls it makes to a trace.

    Each [checkFunction] is an [async] method; its value is the settlement
    of the returned promise, an [outcome]. *)

From Stdlib Require Import String Ascii List ZArith Bool.
Import ListNotations.
Open Scope list_scope.
Open Scope string_scope.

(** ** Data model *)

(** [root] returned by [AndroidUtils.getAndroidSdkRoot()]. *)
Record AndroidSdkRoot := mkAndroidSdkRoot {
  rootSource : string;
  rootLocation : string
}.

(** The package descriptor resolved by the package-discovery probes
    (the fields that the checks read). *)
Record AndroidPackage := mkAndroidPackage {
  path : string;
  platformAPI : string
}.

(** [PlatformConfig.androidConfig()]. *)
Record PlatformConfig := mkPlatformConfig {
  minSupportedRuntime : string;
  supportedImages : list string
}.

(** A JavaScript rejection value of a probe: an error object (with its
    optional [status] and [message] properties), or [undefined]/[null]. *)
Inductive js_error :=
| ErrorObject (status : option Z) (message : option string)
| Nullish.

(** The settlement of a promise produced by a probe. *)
Inductive settled (A : Type) :=
| Resolved (a : A)
| Rejected (e : js_error).
Arguments Resolved {A} a.
Arguments Rejected {A} e.

(** The settlement of the promise returned by a [checkFunction]:
    resolved with a message, rejected with [new SfdxError(msg)], or
    rejected with the [TypeError] thrown inside a [catch] handler. *)
Inductive outcome :=
| Fulfilled (msg : string)
| Unfulfilled (msg : string)
| RejectedTypeError.

(** The [Logger] passed to constructors (only stored, never called). *)
Inductive Logger := mkLogger (name : string).

(** ** The environment: the collaborators imported by the file *)

Record Env := mkEnv {
  getMessage : string -> string;
  getAndroidSdkRoot : option AndroidSdkRoot;
  androidSDKPrerequisitesCheck : settled string;
  fetchAndroidCmdLineToolsLocation : settled string;
  fetchAndroidSDKPlatformToolsLocation : settled string;
  getAndroidPlatformTools : string;
  fetchSupportedAndroidAPIPackage : option string -> settled AndroidPackage;
  fetchSupportedEmulatorImagePackage : option string -> settled AndroidPackage;
  androidConfig : PlatformConfig;
  convertToUnixPath : string -> string;
  (** what [util.format] prints for a string argument under the directives
      [%j %d %i %f %o %O] *)
  formatDirective : ascii -> string -> string
}.

(** One call to a collaborator. *)
Inductive event :=
| EvGetMessage (key : string)
| EvGetAndroidSdkRoot
| EvAndroidSDKPrerequisitesCheck
| EvFetchAndroidCmdLineToolsLocation
| EvFetchAndroidSDKPlatformToolsLocation
| EvGetAndroidPlatformTools
| EvFetchSupportedAndroidAPIPackage (apiLevel : option string)
| EvFetchSupportedEmulatorImagePackage (apiLevel : option string)
| EvAndroidConfig.

(** ** The monad *)

Definition M (A : Type) : Type := Env -> list event * A.

Definition ret {A} (a : A) : M A := fun _ => ([], a).

Definition bind {A B} (m : M A) (k : A -> M B) : M B :=
  fun env =>
    let (t1, a) := m env in
    let (t2, b) := k a env in
    (app t1 t2, b).

Notation "x <- m ;; k" := (bind m (fun x => k))
  (at level 61, m at next level, right associativity).

(** A call to a collaborator: record [ev], return what [f] reads. *)
Definition call {A} (ev : event) (f : Env -> A) : M A :=
  fun env => ([ev], f env).

(** A pure library function that depends on the environment but is not
    recorded as a call (a pure helper). *)
Definition pure {A} (f : Env -> A) : M A := fun env => ([], f env).

(** ** Node's [util.format] for string arguments *)

Definition pct : ascii := "%".

(** One pass over the template: returns the printed text and the arguments
    left unconsumed.  [%s] prints the argument, [%c] consumes it and prints
    nothing, [%j %d %i %f %o %O] print its conversion, [%%] prints one [%],
    any other [%x] is kept as it is; a [%%] still prints [%] once the
    arguments are exhausted, other directives are then kept. *)
Fixpoint format_go (conv : ascii -> string -> string) (s : string)
         (args : list string) : string * list string :=
  match s with
  | EmptyString => (EmptyString, args)
  | String c rest =>
      if Ascii.eqb c pct then
        match rest with
        | EmptyString => (String c EmptyString, args)
        | String c2 rest2 =>
            match args with
            | a :: args' =>
                if Ascii.eqb c2 "s" then
                  let (r, l) := format_go conv rest2 args' in (a ++ r, l)
                else if Ascii.eqb c2 "c" then
                  format_go conv rest2 args'
                else if Ascii.eqb c2 pct then
                  let (r, l) := format_go conv rest2 args in (String pct r, l)
                else if existsb (Ascii.eqb c2)
                          ["j"; "d"; "i"; "f"; "o"; "O"]%char then
                  let (r, l) := format_go conv rest2 args' in (conv c2 a ++ r, l)
                else
                  let (r, l) := format_go conv rest2 args in
                  (String c (String c2 r), l)
            | [] =>
                if Ascii.eqb c2 pct then
                  let (r, l) := format_go conv rest2 args in (String pct r, l)
                else
                  let (r, l) := format_go conv rest2 args in
                  (String c (String c2 r), l)
            end
        end
      else
        let (r, l) := format_go conv rest args in (String c r, l)
  end.

(** [util.format(fmt, ...args)]: with no argument the template is returned
    unchanged; unconsumed arguments are appended, each after a space. *)
Definition util_format (conv : ascii -> string -> string) (fmt : string)
           (args : list string) : string :=
  match args with
  | [] => fmt
  | _ =>
      let (r, left) := format_go conv fmt args in
      r ++ String.concat "" (map (fun a => " " ++ a) left)
  end.

Definition format (fmt : string) (args : list string) : M string :=
  pure (fun env => util_format (formatDirective env) fmt args).

(** ** The requirement classes *)

(** The public fields every class sets in its constructor. *)
Record ReqFields := mkReqFields {
  title : string;
  fulfilledMessage : string;
  unfulfilledMessage : string;
  logger : Logger
}.

(** The six classes of the file; the extra fields are the private ones. *)
Inductive Requirement :=
| AndroidSDKRootSetRequirement (f : ReqFields)
| Java8AvailableRequirement (f : ReqFields)
| AndroidSDKToolsInstalledRequirement (f : ReqFields)
| AndroidSDKPlatformToolsInstalledRequirement (f : ReqFields)
    (notFoundMessage : string)
| PlatformAPIPackageRequirement (f : ReqFields) (apiLevel : option string)
| EmulatorImagesRequirement (f : ReqFields) (apiLevel : option string).

Definition fields (r : Requirement) : ReqFields :=
  match r with
  | AndroidSDKRootSetRequirement f
  | Java8AvailableRequirement f
  | AndroidSDKToolsInstalledRequirement f
  | AndroidSDKPlatformToolsInstalledRequirement f _
  | PlatformAPIPackageRequirement f _
  | EmulatorImagesRequirement f _ => f
  end.

Definition req_title (r : Requirement) : string := title (fields r).

(** [messages.getMessage(key)] *)
Definition get_message (key : string) : M string :=
  call (EvGetMessage key) (fun env => getMessage env key).

(** The three [getMessage] calls that every constructor makes, under the
    key prefix of its class. *)
Definition load_fields (prefix : string) (lg : Logger) : M ReqFields :=
  t <- get_message (prefix ++ ":title") ;;
  fm <- get_message (prefix ++ ":fulfilledMessage") ;;
  um <- get_message (prefix ++ ":unfulfilledMessage") ;;
  ret (mkReqFields t fm um lg).

Definition new_AndroidSDKRootSetRequirement (lg : Logger) : M Requirement :=
  f <- load_fields "android:reqs:androidhome" lg ;;
  ret (AndroidSDKRootSetRequirement f).

Definition new_Java8AvailableRequirement (lg : Logger) : M Requirement :=
  f <- load_fields "android:reqs:androidsdkprerequisitescheck" lg ;;
  ret (Java8AvailableRequirement f).

Definition new_AndroidSDKToolsInstalledRequirement (lg : Logger)
  : M Requirement :=
  f <- load_fields "android:reqs:cmdlinetools" lg ;;
  ret (AndroidSDKToolsInstalledRequirement f).

Definition new_AndroidSDKPlatformToolsInstalledRequirement (lg : Logger)
  : M Requirement :=
  f <- load_fields "android:reqs:platformtools" lg ;;
  nf <- get_message "android:reqs:platformtools:notFound" ;;
  ret (AndroidSDKPlatformToolsInstalledRequirement f nf).

Definition new_PlatformAPIPackageRequirement (lg : Logger)
           (apiLevel : option string) : M Requirement :=
  f <- load_fields "android:reqs:platformapi" lg ;;
  ret (PlatformAPIPackageRequirement f apiLevel).

Definition new_EmulatorImagesRequirement (lg : Logger)
           (apiLevel : option string) : M Requirement :=
  f <- load_fields "android:reqs:emulatorimages" lg ;;
  ret (EmulatorImagesRequirement f apiLevel).

(** ** The check functions *)

(** [promise.then(onResolved).catch(onRejected)] where each handler returns
    a settled promise: a rejection of [p] goes to [onRejected], a
    resolution to [onResolved]. *)
Definition then_catch {A} (p : M (settled A)) (onResolved : A -> M outcome)
           (onRejected : js_error -> M outcome) : M outcome :=
  s <- p ;;
  match s with
  | Resolved a => onResolved a
  | Rejected e => onRejected e
  end.

Definition android_config : M PlatformConfig :=
  call EvAndroidConfig androidConfig.

Definition to_unix_path (s : string) : M string :=
  pure (fun env => convertToUnixPath env s).

(** [AndroidSDKRootSetRequirement.checkFunction] *)
Definition check_AndroidSDKRootSet (f : ReqFields) : M outcome :=
  root <- call EvGetAndroidSdkRoot getAndroidSdkRoot ;;
  match root with
  | Some rt =>
      m <- format (fulfilledMessage f) [rootSource rt; rootLocation rt] ;;
      u <- to_unix_path m ;;
      ret (Fulfilled u)
  | None => ret (Unfulfilled (unfulfilledMessage f))
  end.

(** [error.message] for a rejection value; reading a property of
    [undefined] or [null] throws a [TypeError]. *)
Definition error_message (e : js_error) : option string :=
  match e with
  | ErrorObject _ (Some m) => Some m
  | ErrorObject _ None => Some "undefined"
  | Nullish => None
  end.

(** [error.status === 127] *)
Definition error_status_is_127 (e : js_error) : option bool :=
  match e with
  | ErrorObject (Some s) _ => Some (Z.eqb s 127)
  | ErrorObject None _ => Some false
  | Nullish => None
  end.

(** [Java8AvailableRequirement.checkFunction] *)
Definition check_Java8Available (f : ReqFields) : M outcome :=
  then_catch (call EvAndroidSDKPrerequisitesCheck androidSDKPrerequisitesCheck)
    (fun _ => ret (Fulfilled (fulfilledMessage f)))
    (fun e =>
       match error_message e with
       | Some em =>
           m <- format (unfulfilledMessage f) [em] ;;
           ret (Unfulfilled m)
       | None => ret RejectedTypeError
       end).

(** [AndroidSDKToolsInstalledRequirement.checkFunction] *)
Definition check_AndroidSDKToolsInstalled (f : ReqFields) : M outcome :=
  then_catch
    (call EvFetchAndroidCmdLineToolsLocation fetchAndroidCmdLineToolsLocation)
    (fun result =>
       m <- format (fulfilledMessage f) [result] ;;
       u <- to_unix_path m ;;
       ret (Fulfilled u))
    (fun _ => ret (Unfulfilled (unfulfilledMessage f))).

(** [AndroidSDKPlatformToolsInstalledRequirement.checkFunction] *)
Definition check_AndroidSDKPlatformToolsInstalled (f : ReqFields)
           (notFoundMessage : string) : M outcome :=
  then_catch
    (call EvFetchAndroidSDKPlatformToolsLocation
          fetchAndroidSDKPlatformToolsLocation)
    (fun result =>
       m <- format (fulfilledMessage f) [result] ;;
       u <- to_unix_path m ;;
       ret (Fulfilled u))
    (fun e =>
       match error_status_is_127 e with
       | Some true =>
           pt <- call EvGetAndroidPlatformTools getAndroidPlatformTools ;;
           m <- format notFoundMessage [pt] ;;
           ret (Unfulfilled m)
       | Some false =>
           cfg <- android_config ;;
           m <- format (unfulfilledMessage f) [minSupportedRuntime cfg] ;;
           ret (Unfulfilled m)
       | None => ret RejectedTypeError
       end).

(** [PlatformAPIPackageRequirement.checkFunction] *)
Definition check_PlatformAPIPackage (f : ReqFields) (apiLevel : option string)
  : M outcome :=
  then_catch
    (call (EvFetchSupportedAndroidAPIPackage apiLevel)
          (fun env => fetchSupportedAndroidAPIPackage env apiLevel))
    (fun result =>
       m <- format (fulfilledMessage f) [platformAPI result] ;;
       ret (Fulfilled m))
    (fun _ =>
       cfg <- android_config ;;
       m <- format (unfulfilledMessage f) [minSupportedRuntime cfg] ;;
       ret (Unfulfilled m)).

(** [EmulatorImagesRequirement.checkFunction] *)
Definition check_EmulatorImages (f : ReqFields) (apiLevel : option string)
  : M outcome :=
  then_catch
    (call (EvFetchSupportedEmulatorImagePackage apiLevel)
          (fun env => fetchSupportedEmulatorImagePackage env apiLevel))
    (fun result =>
       m <- format (fulfilledMessage f) [path result] ;;
       ret (Fulfilled m))
    (fun _ =>
       cfg <- android_config ;;
       m <- format (unfulfilledMessage f)
                   [String.concat "," (supportedImages cfg)] ;;
       ret (Unfulfilled m)).

(** [r.checkFunction()], dispatched on the class of [r]. *)
Definition checkFunction (r : Requirement) : M outcome :=
  match r with
  | AndroidSDKRootSetRequirement f => check_AndroidSDKRootSet f
  | Java8AvailableRequirement f => check_Java8Available f
  | AndroidSDKToolsInstalledRequirement f => check_AndroidSDKToolsInstalled f
  | AndroidSDKPlatformToolsInstalledRequirement f nf =>
      check_AndroidSDKPlatformToolsInstalled f nf
  | PlatformAPIPackageRequirement f a => check_PlatformAPIPackage f a
  | EmulatorImagesRequirement f a => check_EmulatorImages f a
  end.

(** ** The setup profile *)

(** Modelled from the spec: [BaseSetup] of [Requirements.ts] (not under
    src/).  It holds the logger and the requirement catalog; its
    constructor starts with an empty catalog and [addBaseRequirements]
    appends to it (spec 4.2: "add appends to the catalog"). *)
Record BaseSetup := mkBaseSetup {
  setup_logger : Logger;
  requirements : list Requirement
}.

Definition new_BaseSetup (lg : Logger) : M BaseSetup :=
  ret (mkBaseSetup lg []).

Definition addBaseRequirements (s : BaseSetup) (reqs : list Requirement)
  : BaseSetup :=
  mkBaseSetup (setup_logger s) (app (requirements s) reqs).

(** [new AndroidEnvironmentSetup(logger, apiLevel)] *)
Definition new_AndroidEnvironmentSetup (lg : Logger) (apiLevel : option string)
  : M BaseSetup :=
  base <- new_BaseSetup lg ;;
  r1 <- new_AndroidSDKRootSetRequirement (setup_logger base) ;;
  r2 <- new_Java8AvailableRequirement (setup_logger base) ;;
  r3 <- new_AndroidSDKToolsInstalledRequirement (setup_logger base) ;;
  r4 <- new_AndroidSDKPlatformToolsInstalledRequirement (setup_logger base) ;;
  r5 <- new_PlatformAPIPackageRequirement (setup_logger base) apiLevel ;;
  r6 <- new_EmulatorImagesRequirement (setup_logger base) apiLevel ;;
  ret (addBaseRequirements base [r1; r2; r3; r4; r5; r6]).

(** The outcome and trace of each requirement's check, in catalog order. *)
Definition run_checks (reqs : list Requirement) (env : Env)
  : list (list event * outcome) :=
  map (fun r => checkFunction r env) reqs.

(** ** A concrete environment, for tests and witnesses *)

(** A message catalog that answers every key with a one-placeholder
    template naming the key. *)
Definition sample_messages (key : string) : string := key ++ " [%s]".

(** [String.replace] for one character, standing for the backslash-to-slash
    normalisation. *)
Fixpoint replace_char (a b : ascii) (s : string) : string :=
  match s with
  | EmptyString => EmptyString
  | String c rest =>
      String (if Ascii.eqb c a then b else c) (replace_char a b rest)
  end.

Definition sample_env : Env := {|
  getMessage := sample_messages;
  getAndroidSdkRoot := Some (mkAndroidSdkRoot "ANDROID_HOME" "C:\sdk");
  androidSDKPrerequisitesCheck := Resolved "ok";
  fetchAndroidCmdLineToolsLocation := Rejected (ErrorObject (Some 1%Z) None);
  fetchAndroidSDKPlatformToolsLocation :=
    Rejected (ErrorObject (Some 127%Z) (Some "not found"));
  getAndroidPlatformTools := "platform-tools";
  fetchSupportedAndroidAPIPackage := fun _ =>
    Resolved (mkAndroidPackage "/x" "30");
  fetchSupportedEmulatorImagePackage := fun _ =>
    Rejected (ErrorObject None (Some "no image"));
  androidConfig := mkPlatformConfig "21" ["google_apis"; "default"];
  convertToUnixPath := replace_char "\" "/";
  formatDirective := fun _ a => a
|}.

(** A second environment: no SDK root, the command-line tools missing
    (status 127), null rejections from the package probes. *)
Definition bare_env : Env := {|
  getMessage := sample_messages;
  getAndroidSdkRoot := None;
  androidSDKPrerequisitesCheck := Rejected Nullish;
  fetchAndroidCmdLineToolsLocation :=
    Rejected (ErrorObject (Some 127%Z) (Some "not found"));
  fetchAndroidSDKPlatformToolsLocation := Rejected (ErrorObject None None);
  getAndroidPlatformTools := "platform-tools";
  fetchSupportedAndroidAPIPackage := fun _ => Rejected Nullish;
  fetchSupportedEmulatorImagePackage := fun _ => Rejected Nullish;
  androidConfig := mkPlatformConfig "23" [];
  convertToUnixPath := fun s => s;
  formatDirective := fun _ a => a
|}.

Definition sample_fields : ReqFields :=
  mkReqFields "Tools" "found %s" "no tools" (mkLogger "test").

(** ** Notions used in the statements *)

(** Every rejection of [s] is an error object, not [undefined]/[null]. *)
Definition rejects_with_error_object {A} (s : settled A) : Prop :=
  forall e, s = Rejected e -> e <> Nullish.

(** The probes fail only in the expected way: with error objects. *)
Definition probes_fail_with_errors (env : Env) : Prop :=
  rejects_with_error_object (androidSDKPrerequisitesCheck env) /\
  rejects_with_error_object (fetchAndroidCmdLineToolsLocation env) /\
  rejects_with_error_object (fetchAndroidSDKPlatformToolsLocation env) /\
  (forall a, rejects_with_error_object (fetchSupportedAndroidAPIPackage env a)) /\
  (forall a, rejects_with_error_object (fetchSupportedEmulatorImagePackage env a)).

(** [env] with [PlatformConfig.androidConfig()] answering [cfg]. *)
Definition with_config (env : Env) (cfg : PlatformConfig) : Env := {|
  getMessage := getMessage env;
  getAndroidSdkRoot := getAndroidSdkRoot env;
  androidSDKPrerequisitesCheck := androidSDKPrerequisitesCheck env;
  fetchAndroidCmdLineToolsLocation := fetchAndroidCmdLineToolsLocation env;
  fetchAndroidSDKPlatformToolsLocation := fetchAndroidSDKPlatformToolsLocation env;
  getAndroidPlatformTools := getAndroidPlatformTools env;
  fetchSupportedAndroidAPIPackage := fetchSupportedAndroidAPIPackage env;
  fetchSupportedEmulatorImagePackage := fetchSupportedEmulatorImagePackage env;
  androidConfig := cfg;
  convertToUnixPath := convertToUnixPath env;
  formatDirective := formatDirective env
|}.

(** The message of a fulfilled outcome; [None] for the other outcomes. *)
Definition fulfilled_message (o : outcome) : option string :=
  match o with
  | Fulfilled m => Some m
  | _ => None
  end.

(** The name of the class of a requirement. *)
Definition class_name (r : Requirement) : string :=
  match r with
  | AndroidSDKRootSetRequirement _ => "AndroidSDKRootSetRequirement"
  | Java8AvailableRequirement _ => "Java8AvailableRequirement"
  | AndroidSDKToolsInstalledRequirement _ => "AndroidSDKToolsInstalledRequirement"
  | AndroidSDKPlatformToolsInstalledRequirement _ _ =>
      "AndroidSDKPlatformToolsInstalledRequirement"
  | PlatformAPIPackageRequirement _ _ => "PlatformAPIPackageRequirement"
  | EmulatorImagesRequirement _ _ => "EmulatorImagesRequirement"
  end.

(** The template uses no directive that drops or converts its argument
    ([%c %j %d %i %f %o %O]); [%s], [%%] and other [%x] are allowed. *)
Fixpoint plain_directives (s : string) : bool :=
  match s with
  | EmptyString => true
  | String c rest =>
      if Ascii.eqb c pct then
        match rest with
        | EmptyString => true
        | String c2 rest2 =>
            negb (existsb (Ascii.eqb c2) ["c"; "j"; "d"; "i"; "f"; "o"; "O"]%char)
            && plain_directives rest2
        end
      else plain_directives rest
  end.

Definition contains (s sub : string) : Prop :=
  exists p q, s = p ++ sub ++ q.

(** The probe that the check of each class calls. *)
Definition probe_event (r : Requirement) : event :=
  match r with
  | AndroidSDKRootSetRequirement _ => EvGetAndroidSdkRoot
  | Java8AvailableRequirement _ => EvAndroidSDKPrerequisitesCheck
  | AndroidSDKToolsInstalledRequirement _ => EvFetchAndroidCmdLineToolsLocation
  | AndroidSDKPlatformToolsInstalledRequirement _ _ =>
      EvFetchAndroidSDKPlatformToolsLocation
  | PlatformAPIPackageRequirement _ a => EvFetchSupportedAndroidAPIPackage a
  | EmulatorImagesRequirement _ a => EvFetchSupportedEmulatorImagePackage a
  end.

(** ** Tests *)

Example util_format_extra_args :
  util_format (fun _ a => a) "a %s b" ["x"; "y"] = "a x b y".
Proof. reflexivity. Qed.

Example util_format_missing_args :
  util_format (fun _ a => a) "%s:%s %%" ["x"] = "x:%s %".
Proof. reflexivity. Qed.

Example util_format_no_args :
  util_format (fun _ a => a) "100%%" [] = "100%%".
Proof. reflexivity. Qed.

Example sample_run :
  map snd (run_checks
             (requirements (snd (new_AndroidEnvironmentSetup
                                   (mkLogger "test") None sample_env)))
             sample_env)
  = [Fulfilled "android:reqs:androidhome:fulfilledMessage [ANDROID_HOME] C:/sdk";
     Fulfilled "android:reqs:androidsdkprerequisitescheck:fulfilledMessage [%s]";
     Unfulfilled "android:reqs:cmdlinetools:unfulfilledMessage [%s]";
     Unfulfilled "android:reqs:platformtools:notFound [platform-tools]";
     Fulfilled "android:reqs:platformapi:fulfilledMessage [30]";
     Unfulfilled "android:reqs:emulatorimages:unfulfilledMessage [google_apis,default]"].
Proof. reflexivity. Qed.

(** ** Proof support *)

Ltac unfold_m :=
  unfold checkFunction, check_AndroidSDKRootSet, check_Java8Available,
    check_AndroidSDKToolsInstalled, check_AndroidSDKPlatformToolsInstalled,
    check_PlatformAPIPackage, check_EmulatorImages, then_catch,
    android_config, to_unix_path, format, get_message, call, pure, bind, ret
  in *; cbn in *.

Ltac unfold_ctor :=
  unfold new_AndroidEnvironmentSetup, new_BaseSetup, addBaseRequirements,
    new_AndroidSDKRootSetRequirement, new_Java8AvailableRequirement,
    new_AndroidSDKToolsInstalledRequirement,
    new_AndroidSDKPlatformToolsInstalledRequirement,
    new_PlatformAPIPackageRequirement, new_EmulatorImagesRequirement,
    load_fields, get_message, call, bind, ret;
  cbn.

(** ** C1: the platform-tools check tells "not found" (status 127) from
    other failures *)

(** C1. For [AndroidSDKPlatformToolsInstalledRequirement.checkFunction]:
    a rejection of the tool-location probe with status 127 gives the
    not-found message formatted with the platform-tools package name; a
    rejection with any other status gives the unfulfilled template
    formatted with the configured minimum supported runtime; the check is
    fulfilled only when the probe resolves, and then with the fulfilled
    template formatted with the resolved location. *)
Theorem platform_tools_not_found_vs_unfulfilled
        (f : ReqFields) (nf : string) (env : Env) :
  let conv := formatDirective env in
  let o := snd (checkFunction (AndroidSDKPlatformToolsInstalledRequirement f nf)
                              env) in
  (forall msg,
      fetchAndroidSDKPlatformToolsLocation env
        = Rejected (ErrorObject (Some 127%Z) msg) ->
      o = Unfulfilled (util_format conv nf [getAndroidPlatformTools env])) /\
  (forall st msg,
      st <> Some 127%Z ->
      fetchAndroidSDKPlatformToolsLocation env = Rejected (ErrorObject st msg) ->
      o = Unfulfilled (util_format conv (unfulfilledMessage f)
                                   [minSupportedRuntime (androidConfig env)])) /\
  (forall m,
      o = Fulfilled m ->
      exists result,
        fetchAndroidSDKPlatformToolsLocation env = Resolved result /\
        m = convertToUnixPath env (util_format conv (fulfilledMessage f) [result])).
Proof.
  cbv zeta; unfold_m.
  split; [|split].
  - intros msg H; rewrite H; reflexivity.
  - intros st msg Hst H; rewrite H; cbn.
    destruct st as [s|]; cbn; [|reflexivity].
    destruct (Z.eqb_spec s 127) as [->|Hne]; [congruence|reflexivity].
  - intros m.
    destruct (fetchAndroidSDKPlatformToolsLocation env) as [r|[[s|] em|]];
      cbn; intros H.
    + inversion H; subst; eauto.
    + destruct (Z.eqb s 127); discriminate.
    + discriminate.
    + discriminate.
Qed.

(** ** C5: the SDK-root check *)

(** C5. [AndroidSDKRootSetRequirement.checkFunction] is fulfilled exactly
    when [getAndroidSdkRoot()] returns a root; then its message is the
    fulfilled template formatted with [rootSource] and [rootLocation] and
    passed through [convertToUnixPath]; otherwise it is unfulfilled with the
    unfulfilled template itself, with no substitution. *)
Theorem sdk_root_check_iff_root_present (f : ReqFields) (env : Env) :
  let o := snd (checkFunction (AndroidSDKRootSetRequirement f) env) in
  ((exists m, o = Fulfilled m) <-> (exists rt, getAndroidSdkRoot env = Some rt)) /\
  (forall rt,
      getAndroidSdkRoot env = Some rt ->
      o = Fulfilled (convertToUnixPath env
                       (util_format (formatDirective env) (fulfilledMessage f)
                                    [rootSource rt; rootLocation rt]))) /\
  (getAndroidSdkRoot env = None -> o = Unfulfilled (unfulfilledMessage f)).
Proof.
  cbv zeta; unfold_m.
  destruct (getAndroidSdkRoot env) as [rt|]; cbn.
  - split; [|split].
    + split; eauto.
    + intros rt' H; inversion H; subst; reflexivity.
    + discriminate.
  - split; [|split].
    + split; intros [x H]; discriminate.
    + discriminate.
    + reflexivity.
Qed.

(** ** C10: the command-line-tools check keeps nothing of the failure *)

(** C10. Any two rejections of the command-line-tools probe, whatever the
    error values (status 127 included) and whatever the rest of the two
    environments, give the same check result: the unfulfilled template
    itself, with no substitution. *)
Theorem cmdline_tools_failures_collapse
        (f : ReqFields) (env1 env2 : Env) (e1 e2 : js_error) :
  fetchAndroidCmdLineToolsLocation env1 = Rejected e1 ->
  fetchAndroidCmdLineToolsLocation env2 = Rejected e2 ->
  checkFunction (AndroidSDKToolsInstalledRequirement f) env1
  = checkFunction (AndroidSDKToolsInstalledRequirement f) env2 /\
  snd (checkFunction (AndroidSDKToolsInstalledRequirement f) env1)
  = Unfulfilled (unfulfilledMessage f).
Proof.
  intros H1 H2; unfold_m; rewrite H1, H2; split; reflexivity.
Qed.

(** C10 at a concrete pair of failures: status 127 in [bare_env] against
    status 1 in [sample_env]. *)
Lemma cmdline_tools_failures_collapse_witness :
  checkFunction (AndroidSDKToolsInstalledRequirement sample_fields) bare_env
  = checkFunction (AndroidSDKToolsInstalledRequirement sample_fields) sample_env /\
  snd (checkFunction (AndroidSDKToolsInstalledRequirement sample_fields) bare_env)
  = Unfulfilled "no tools".
Proof.
  exact (cmdline_tools_failures_collapse sample_fields bare_env sample_env
           (ErrorObject (Some 127%Z) (Some "not found"))
           (ErrorObject (Some 1%Z) None) eq_refl eq_refl).
Defined.

(** ** C3: the emulator-images check *)

(** C3. For [EmulatorImagesRequirement.checkFunction] with any [apiLevel]:
    whenever the package-discovery probe rejects (for whatever reason, e.g.
    no package with a supported image was discovered), the check is
    unfulfilled with the unfulfilled template formatted with all configured
    supported images joined by "," in their configured order; whenever the
    probe resolves with a descriptor, the check is fulfilled with the
    fulfilled template formatted with the descriptor's [path]. *)
Theorem emulator_images_messages
        (f : ReqFields) (apiLevel : option string) (env : Env) :
  let conv := formatDirective env in
  let o := snd (checkFunction (EmulatorImagesRequirement f apiLevel) env) in
  (forall e,
      fetchSupportedEmulatorImagePackage env apiLevel = Rejected e ->
      o = Unfulfilled
            (util_format conv (unfulfilledMessage f)
               [String.concat "," (supportedImages (androidConfig env))])) /\
  (forall d,
      fetchSupportedEmulatorImagePackage env apiLevel = Resolved d ->
      o = Fulfilled (util_format conv (fulfilledMessage f) [path d])).
Proof.
  cbv zeta; unfold_m.
  split; intros x H; rewrite H; reflexivity.
Qed.

(** ** Strings: one argument of [util.format] always shows in its output *)

Lemma string_append_assoc (a b c : string) : (a ++ b) ++ c = a ++ (b ++ c).
Proof. induction a as [|x a IH]; cbn; [reflexivity|now rewrite IH]. Qed.

Lemma string_append_empty (a : string) : a ++ "" = a.
Proof. induction a as [|x a IH]; cbn; [reflexivity|now rewrite IH]. Qed.

Lemma string_len_ind (P : string -> Prop) :
  (forall s, (forall t, String.length t < String.length s -> P t) -> P s) ->
  forall s, P s.
Proof.
  intros H s.
  assert (G : forall n t, String.length t <= n -> P t).
  { induction n as [|n IH]; intros t Ht; apply H; intros u Hu.
    - exfalso; apply (Nat.nlt_0_r (String.length u)); eapply Nat.lt_le_trans; eauto.
    - apply IH. apply Nat.lt_succ_r. eapply Nat.lt_le_trans; eauto. }
  exact (G _ s (le_n _)).
Qed.

Lemma format_go_single (conv : ascii -> string -> string) (a : string) :
  forall s, plain_directives s = true ->
  (exists r, format_go conv s [a] = (r, [a])) \/
  (exists r l, format_go conv s [a] = (r, l) /\ contains r a).
Proof.
  intros s; pattern s; apply string_len_ind; clear s.
  intros [|c rest] IH Hp; cbn [format_go plain_directives] in *.
  - left; eauto.
  - destruct (Ascii.eqb c pct) eqn:Ec.
    + destruct rest as [|c2 rest2]; [left; eauto|].
      apply andb_prop in Hp as [Hn Hp].
      apply negb_true_iff in Hn.
      change (existsb (Ascii.eqb c2) ("c" :: ["j"; "d"; "i"; "f"; "o"; "O"])%char)
        with (Ascii.eqb c2 "c" || existsb (Ascii.eqb c2)
                                   ["j"; "d"; "i"; "f"; "o"; "O"]%char)%bool in Hn.
      apply orb_false_iff in Hn as [Ecc HL].
      assert (Hlen : String.length rest2 < S (S (String.length rest2)))
        by (apply Nat.lt_lt_succ_r, Nat.lt_succ_diag_r).
      destruct (Ascii.eqb c2 "s") eqn:Es.
      * right. destruct (format_go conv rest2 []) as [r l].
        exists (a ++ r), l; split; [reflexivity|].
        exists "", r; reflexivity.
      * rewrite Ecc.
        destruct (Ascii.eqb c2 pct) eqn:Ep.
        -- destruct (IH rest2 Hlen Hp) as [[r Hr]|[r [l [Hr [p [q Hc]]]]]];
             rewrite Hr.
           ++ left; eauto.
           ++ right; exists (String pct r), l; split; [reflexivity|].
              exists (String pct p), q; rewrite Hc; reflexivity.
        -- rewrite HL.
           destruct (IH rest2 Hlen Hp) as [[r Hr]|[r [l [Hr [p [q Hc]]]]]];
             rewrite Hr.
           ++ left; eauto.
           ++ right; exists (String c (String c2 r)), l; split; [reflexivity|].
              exists (String c (String c2 p)), q; rewrite Hc; reflexivity.
    + assert (Hlen : String.length rest < S (String.length rest))
        by apply Nat.lt_succ_diag_r.
      destruct (IH rest Hlen Hp) as [[r Hr]|[r [l [Hr [p [q Hc]]]]]];
        rewrite Hr.
      * left; eauto.
      * right; exists (String c r), l; split; [reflexivity|].
        exists (String c p), q; rewrite Hc; reflexivity.
Qed.

Lemma util_format_single_contains (conv : ascii -> string -> string)
      (tmpl a : string) :
  plain_directives tmpl = true -> contains (util_format conv tmpl [a]) a.
Proof.
  intros Hp; unfold util_format.
  destruct (format_go_single conv a tmpl Hp) as [[r Hr]|[r [l [Hr [p [q Hc]]]]]];
    rewrite Hr.
  - exists (r ++ " "), ""; cbn.
    rewrite string_append_empty, string_append_assoc; reflexivity.
  - exists p, (q ++ String.concat "" (map (fun x => " " ++ x) l)).
    rewrite Hc, !string_append_assoc; reflexivity.
Qed.

(** ** C4: the platform-API package check *)

(** C4. For [PlatformAPIPackageRequirement.checkFunction] with any
    [apiLevel]: when the package-discovery probe resolves with a descriptor
    the check is fulfilled with the fulfilled template formatted with the
    descriptor's [platformAPI] (so a discovered platformAPI "30" shows in
    the message, for a template without argument-dropping directives); when
    the probe rejects, the check is unfulfilled with the unfulfilled
    template formatted with the configured minimum supported runtime. *)
Theorem platform_api_package_messages
        (f : ReqFields) (apiLevel : option string) (env : Env) :
  let conv := formatDirective env in
  let o := snd (checkFunction (PlatformAPIPackageRequirement f apiLevel) env) in
  (forall d,
      fetchSupportedAndroidAPIPackage env apiLevel = Resolved d ->
      o = Fulfilled (util_format conv (fulfilledMessage f) [platformAPI d])) /\
  (forall e,
      fetchSupportedAndroidAPIPackage env apiLevel = Rejected e ->
      o = Unfulfilled (util_format conv (unfulfilledMessage f)
                                   [minSupportedRuntime (androidConfig env)])) /\
  (forall d,
      fetchSupportedAndroidAPIPackage env apiLevel = Resolved d ->
      platformAPI d = "30" ->
      plain_directives (fulfilledMessage f) = true ->
      exists m, o = Fulfilled m /\ contains m "30").
Proof.
  cbv zeta; unfold_m.
  split; [|split].
  - intros d H; rewrite H; reflexivity.
  - intros e H; rewrite H; reflexivity.
  - intros d H Hd Hp; rewrite H; cbn.
    eexists; split; [reflexivity|].
    rewrite <- Hd; apply util_format_single_contains; exact Hp.
Qed.

(** C4 on the end-to-end scenario of the spec: apiLevel "30", a package
    with platformAPI "30" at "/x". *)
Lemma platform_api_package_messages_witness :
  snd (checkFunction (PlatformAPIPackageRequirement sample_fields (Some "30"))
                     sample_env)
  = Fulfilled "found 30" /\
  exists m,
    snd (checkFunction (PlatformAPIPackageRequirement sample_fields (Some "30"))
                       sample_env) = Fulfilled m /\ contains m "30".
Proof.
  destruct (platform_api_package_messages sample_fields (Some "30") sample_env)
    as [Hres [_ Hc]].
  split.
  - apply (Hres (mkAndroidPackage "/x" "30")); reflexivity.
  - apply (Hc (mkAndroidPackage "/x" "30")); reflexivity.
Defined.

(** ** C2: expected failures are [Unfulfilled] outcomes *)

(** C2. [checkFunction] is [async]: calling it always yields a promise,
    whose settlement is the [outcome].  For every requirement (any of the
    six classes, with any fields) and every environment whose probes fail
    only with error objects (the expected failure mode), the outcome is
    [Fulfilled] or [Unfulfilled] (a rejection with [SfdxError]); never
    another rejection. *)
Theorem check_outcome_fulfilled_or_unfulfilled (r : Requirement) (env : Env) :
  probes_fail_with_errors env ->
  exists m, snd (checkFunction r env) = Fulfilled m \/
            snd (checkFunction r env) = Unfulfilled m.
Proof.
  intros (Hpre & Hcmd & Hpt & Hapi & Hemu).
  destruct r as [f|f|f|f nf|f a|f a]; unfold_m.
  - destruct (getAndroidSdkRoot env); cbn; eauto.
  - destruct (androidSDKPrerequisitesCheck env) as [x|[st [em|]|]] eqn:E;
      cbn; eauto.
    exfalso; exact (Hpre Nullish eq_refl eq_refl).
  - destruct (fetchAndroidCmdLineToolsLocation env); cbn; eauto.
  - destruct (fetchAndroidSDKPlatformToolsLocation env) as [x|[[st|] em|]] eqn:E;
      cbn; eauto.
    + destruct (Z.eqb st 127); cbn; eauto.
    + exfalso; exact (Hpt Nullish eq_refl eq_refl).
  - destruct (fetchSupportedAndroidAPIPackage env a); cbn; eauto.
  - destruct (fetchSupportedEmulatorImagePackage env a); cbn; eauto.
Qed.

(** C2 on [sample_env], for the platform-tools requirement. *)
Lemma check_outcome_fulfilled_or_unfulfilled_witness :
  probes_fail_with_errors sample_env /\
  exists m,
    snd (checkFunction (AndroidSDKPlatformToolsInstalledRequirement
                          sample_fields "missing %s") sample_env) = Fulfilled m \/
    snd (checkFunction (AndroidSDKPlatformToolsInstalledRequirement
                          sample_fields "missing %s") sample_env) = Unfulfilled m.
Proof.
  assert (H : probes_fail_with_errors sample_env).
  { unfold probes_fail_with_errors, rejects_with_error_object.
    repeat split; repeat intro; cbn in *; congruence. }
  split; [exact H|].
  apply (check_outcome_fulfilled_or_unfulfilled _ sample_env H).
Defined.

(** A null rejection is outside the expected failure modes: reading
    [error.message] in the [catch] handler throws. *)
Example java8_null_rejection :
  snd (checkFunction (Java8AvailableRequirement sample_fields) bare_env)
  = RejectedTypeError.
Proof. reflexivity. Qed.

(** ** C6: the configuration is read only to build unfulfilled messages *)

(** C6. For every requirement and every environment: replacing the
    configuration ([minSupportedRuntime], [supportedImages]) changes
    neither whether the check is fulfilled nor its fulfilled message; and
    a check that reads the configuration ends unfulfilled. *)
Theorem config_read_only_on_failure
        (r : Requirement) (env : Env) (cfg : PlatformConfig) :
  fulfilled_message (snd (checkFunction r env))
  = fulfilled_message (snd (checkFunction r (with_config env cfg))) /\
  (In EvAndroidConfig (fst (checkFunction r env)) ->
   exists m, snd (checkFunction r env) = Unfulfilled m).
Proof.
  destruct r as [f|f|f|f nf|f a|f a]; unfold_m.
  - destruct (getAndroidSdkRoot env); cbn;
      split; try reflexivity; intros H; intuition discriminate.
  - destruct (androidSDKPrerequisitesCheck env) as [x|[st [em|]|]]; cbn;
      split; try reflexivity; intros H; intuition discriminate.
  - destruct (fetchAndroidCmdLineToolsLocation env); cbn;
      split; try reflexivity; intros H; intuition discriminate.
  - destruct (fetchAndroidSDKPlatformToolsLocation env) as [x|[[st|] em|]]; cbn;
      try destruct (Z.eqb st 127); cbn;
      split; try reflexivity; intros H; intuition (try discriminate); eauto.
  - destruct (fetchSupportedAndroidAPIPackage env a); cbn;
      split; try reflexivity; intros H; intuition (try discriminate); eauto.
  - destruct (fetchSupportedEmulatorImagePackage env a); cbn;
      split; try reflexivity; intros H; intuition (try discriminate); eauto.
Qed.

(** ** C8: the catalog *)

(** C8. [new AndroidEnvironmentSetup(logger, apiLevel)] registers exactly
    six requirements, in the order SDK root, Java 8 prerequisites,
    command-line tools, platform tools, platform-API package, emulator
    images; their titles are read from six pairwise distinct catalog keys,
    so they are pairwise distinct whenever the message catalog gives
    distinct texts to distinct title keys. *)
Theorem catalog_six_in_order_distinct_titles
        (lg : Logger) (apiLevel : option string) (env : Env) :
  let reqs := requirements (snd (new_AndroidEnvironmentSetup lg apiLevel env)) in
  let keys := ["android:reqs:androidhome:title";
               "android:reqs:androidsdkprerequisitescheck:title";
               "android:reqs:cmdlinetools:title";
               "android:reqs:platformtools:title";
               "android:reqs:platformapi:title";
               "android:reqs:emulatorimages:title"] in
  map class_name reqs
  = ["AndroidSDKRootSetRequirement"; "Java8AvailableRequirement";
     "AndroidSDKToolsInstalledRequirement";
     "AndroidSDKPlatformToolsInstalledRequirement";
     "PlatformAPIPackageRequirement"; "EmulatorImagesRequirement"] /\
  map req_title reqs = map (getMessage env) keys /\
  NoDup keys /\
  ((forall k1 k2, In k1 keys -> In k2 keys ->
                  getMessage env k1 = getMessage env k2 -> k1 = k2) ->
   NoDup (map req_title reqs)).
Proof.
  cbv zeta.
  assert (Hk : NoDup ["android:reqs:androidhome:title";
               "android:reqs:androidsdkprerequisitescheck:title";
               "android:reqs:cmdlinetools:title";
               "android:reqs:platformtools:title";
               "android:reqs:platformapi:title";
               "android:reqs:emulatorimages:title"]).
  { repeat constructor; cbn; intuition discriminate. }
  unfold_ctor.
  split; [reflexivity|split; [reflexivity|split; [exact Hk|]]].
  intros Hinj.
  change (NoDup (map (getMessage env)
                  ["android:reqs:androidhome:title";
                   "android:reqs:androidsdkprerequisitescheck:title";
                   "android:reqs:cmdlinetools:title";
                   "android:reqs:platformtools:title";
                   "android:reqs:platformapi:title";
                   "android:reqs:emulatorimages:title"])).
  apply NoDup_map_NoDup_ForallPairs; [|exact Hk].
  intros k1 k2 H1 H2; apply Hinj; assumption.
Qed.

(** C8 with [sample_messages], which gives every key its own text. *)
Lemma catalog_six_in_order_distinct_titles_witness :
  NoDup (map req_title
           (requirements (snd (new_AndroidEnvironmentSetup
                                 (mkLogger "test") None sample_env)))).
Proof.
  destruct (catalog_six_in_order_distinct_titles (mkLogger "test") None sample_env)
    as [_ [_ [_ H]]].
  apply H.
  intros k1 k2 H1 H2 Heq.
  cbn in H1, H2.
  repeat (destruct H1 as [<-|H1]); try contradiction;
    repeat (destruct H2 as [<-|H2]); try contradiction;
    first [reflexivity | discriminate Heq].
Defined.

(** ** C9: construction only reads the message catalog *)

(** C9. For every logger, [apiLevel] and environment, constructing
    [AndroidEnvironmentSetup] makes exactly the nineteen [getMessage] calls
    of the six requirement constructors, in order, and no other call: no
    probe, no configuration read, no check.  Its result depends on the
    environment only through the message catalog. *)
Theorem construction_runs_no_check
        (lg : Logger) (apiLevel : option string) (env : Env) :
  fst (new_AndroidEnvironmentSetup lg apiLevel env)
  = map EvGetMessage
      ["android:reqs:androidhome:title";
       "android:reqs:androidhome:fulfilledMessage";
       "android:reqs:androidhome:unfulfilledMessage";
       "android:reqs:androidsdkprerequisitescheck:title";
       "android:reqs:androidsdkprerequisitescheck:fulfilledMessage";
       "android:reqs:androidsdkprerequisitescheck:unfulfilledMessage";
       "android:reqs:cmdlinetools:title";
       "android:reqs:cmdlinetools:fulfilledMessage";
       "android:reqs:cmdlinetools:unfulfilledMessage";
       "android:reqs:platformtools:title";
       "android:reqs:platformtools:fulfilledMessage";
       "android:reqs:platformtools:unfulfilledMessage";
       "android:reqs:platformtools:notFound";
       "android:reqs:platformapi:title";
       "android:reqs:platformapi:fulfilledMessage";
       "android:reqs:platformapi:unfulfilledMessage";
       "android:reqs:emulatorimages:title";
       "android:reqs:emulatorimages:fulfilledMessage";
       "android:reqs:emulatorimages:unfulfilledMessage"] /\
  (forall e, In e (fst (new_AndroidEnvironmentSetup lg apiLevel env)) ->
             exists k, e = EvGetMessage k) /\
  (forall env', getMessage env' = getMessage env ->
                new_AndroidEnvironmentSetup lg apiLevel env'
                = new_AndroidEnvironmentSetup lg apiLevel env).
Proof.
  assert (Htr : forall env0,
    fst (new_AndroidEnvironmentSetup lg apiLevel env0)
    = map EvGetMessage
      ["android:reqs:androidhome:title";
       "android:reqs:androidhome:fulfilledMessage";
       "android:reqs:androidhome:unfulfilledMessage";
       "android:reqs:androidsdkprerequisitescheck:title";
       "android:reqs:androidsdkprerequisitescheck:fulfilledMessage";
       "android:reqs:androidsdkprerequisitescheck:unfulfilledMessage";
       "android:reqs:cmdlinetools:title";
       "android:reqs:cmdlinetools:fulfilledMessage";
       "android:reqs:cmdlinetools:unfulfilledMessage";
       "android:reqs:platformtools:title";
       "android:reqs:platformtools:fulfilledMessage";
       "android:reqs:platformtools:unfulfilledMessage";
       "android:reqs:platformtools:notFound";
       "android:reqs:platformapi:title";
       "android:reqs:platformapi:fulfilledMessage";
       "android:reqs:platformapi:unfulfilledMessage";
       "android:reqs:emulatorimages:title";
       "android:reqs:emulatorimages:fulfilledMessage";
       "android:reqs:emulatorimages:unfulfilledMessage"]).
  { intros env0; unfold_ctor; reflexivity. }
  split; [apply Htr|split].
  - intros e He; rewrite Htr in He.
    apply in_map_iff in He as [k [Hk _]]; eauto.
  - intros env' H; unfold_ctor; rewrite H; reflexivity.
Qed.

(** ** C7: [apiLevel] reaches only the two package checks *)

(** C7. Two constructions that differ only in [apiLevel] register the same
    first four requirements, whose checks then give identical results (trace
    and outcome) in every environment; the last two requirements are the
    platform-API package and emulator-images requirements carrying
    [apiLevel] as given (absent when unset), and their checks call the
    package-discovery probes with exactly that [apiLevel]. *)
Theorem api_level_reaches_only_package_checks
        (lg : Logger) (a1 a2 : option string) (env env' : Env) :
  let r1 := requirements (snd (new_AndroidEnvironmentSetup lg a1 env)) in
  let r2 := requirements (snd (new_AndroidEnvironmentSetup lg a2 env)) in
  firstn 4 r1 = firstn 4 r2 /\
  firstn 4 (run_checks r1 env') = firstn 4 (run_checks r2 env') /\
  (exists f5 f6,
      skipn 4 r1 = [PlatformAPIPackageRequirement f5 a1;
                    EmulatorImagesRequirement f6 a1]) /\
  (exists t5 t6,
      map fst (skipn 4 (run_checks r1 env'))
      = [EvFetchSupportedAndroidAPIPackage a1 :: t5;
         EvFetchSupportedEmulatorImagePackage a1 :: t6]).
Proof.
  cbv zeta; unfold_ctor.
  split; [reflexivity|split; [reflexivity|split; [eauto|]]].
  unfold run_checks; cbn; unfold_m.
  destruct (fetchSupportedAndroidAPIPackage env' a1);
    destruct (fetchSupportedEmulatorImagePackage env' a1); cbn; eauto.
Qed.

(** C7 with [apiLevel] unset against "30": the probes are called with
    [None]. *)
Lemma api_level_reaches_only_package_checks_witness :
  let r1 := requirements (snd (new_AndroidEnvironmentSetup (mkLogger "t") None
                                                            sample_env)) in
  let r2 := requirements (snd (new_AndroidEnvironmentSetup (mkLogger "t")
                                                            (Some "30") sample_env)) in
  firstn 4 (run_checks r1 sample_env) = firstn 4 (run_checks r2 sample_env) /\
  exists t5 t6,
    map fst (skipn 4 (run_checks r1 sample_env))
    = [EvFetchSupportedAndroidAPIPackage None :: t5;
       EvFetchSupportedEmulatorImagePackage None :: t6].
Proof.
  destruct (api_level_reaches_only_package_checks (mkLogger "t") None (Some "30")
              sample_env sample_env) as [_ [H2 [_ H4]]].
  split; [exact H2|exact H4].
Defined.

(** ** Further properties of the file *)


(** X2. [AndroidSDKToolsInstalledRequirement.checkFunction]: when the
    command-line-tools probe resolves with a location, the check is
    fulfilled with the fulfilled template formatted with that location and
    then normalised by [convertToUnixPath]; it is fulfilled only then. *)
Theorem cmdline_tools_fulfilled (f : ReqFields) (env : Env) :
  let o := snd (checkFunction (AndroidSDKToolsInstalledRequirement f) env) in
  (forall loc, fetchAndroidCmdLineToolsLocation env = Resolved loc ->
     o = Fulfilled (convertToUnixPath env
                      (util_format (formatDirective env) (fulfilledMessage f) [loc]))) /\
  (forall m, o = Fulfilled m ->
     exists loc, fetchAndroidCmdLineToolsLocation env = Resolved loc).
Proof.
  cbv zeta; unfold_m.
  destruct (fetchAndroidCmdLineToolsLocation env) as [loc|e]; cbn.
  - split; [intros l H; inversion H; reflexivity|eauto].
  - split; [discriminate|discriminate].
Qed.


(** X4. Every [checkFunction] calls its own probe first, exactly once, and
    afterwards at most the platform-tools package name lookup or the
    configuration read: it never reads the message catalog and never calls
    another requirement's probe. *)
Theorem check_trace_shape (r : Requirement) (env : Env) :
  exists t,
    fst (checkFunction r env) = probe_event r :: t /\
    Forall (fun e => e = EvGetAndroidPlatformTools \/ e = EvAndroidConfig) t.
Proof.
  destruct r as [f|f|f|f nf|f a|f a]; unfold_m.
  - destruct (getAndroidSdkRoot env); cbn; eauto.
  - destruct (androidSDKPrerequisitesCheck env) as [x|[st [em|]|]]; cbn; eauto.
  - destruct (fetchAndroidCmdLineToolsLocation env); cbn; eauto.
  - destruct (fetchAndroidSDKPlatformToolsLocation env) as [x|[[st|] em|]]; cbn;
      [eauto| |eauto|eauto].
    destruct (Z.eqb st 127); cbn; eauto.
  - destruct (fetchSupportedAndroidAPIPackage env a); cbn; eauto.
  - destruct (fetchSupportedEmulatorImagePackage env a); cbn; eauto.
Qed.

(** X5. The two failure branches of the platform-tools check read only what
    their message needs: on status 127 the check looks up the platform-tools
    package name and does not read the configuration; on any other status
    it reads the configuration and does not look up the package name. *)
Theorem platform_tools_failure_traces (f : ReqFields) (nf : string) (env : Env) :
  (forall m, fetchAndroidSDKPlatformToolsLocation env
             = Rejected (ErrorObject (Some 127%Z) m) ->
   fst (checkFunction (AndroidSDKPlatformToolsInstalledRequirement f nf) env)
   = [EvFetchAndroidSDKPlatformToolsLocation; EvGetAndroidPlatformTools]) /\
  (forall st m, st <> Some 127%Z ->
   fetchAndroidSDKPlatformToolsLocation env = Rejected (ErrorObject st m) ->
   fst (checkFunction (AndroidSDKPlatformToolsInstalledRequirement f nf) env)
   = [EvFetchAndroidSDKPlatformToolsLocation; EvAndroidConfig]).
Proof.
  unfold_m; split.
  - intros m H; rewrite H; reflexivity.
  - intros [st|] m Hst H; rewrite H; cbn; [|reflexivity].
    destruct (Z.eqb_spec st 127) as [->|_]; [congruence|reflexivity].
Qed.

(** X6. A probe that rejects with [undefined] or [null] makes the [catch]
    handler of the Java 8 and platform-tools checks throw (they read
    [error.message] and [error.status]): the check rejects with that
    [TypeError], not with an [SfdxError].  The other four checks never
    look at the rejection value. *)
Theorem nullish_rejection_type_error (f : ReqFields) (nf : string) (env : Env) :
  (androidSDKPrerequisitesCheck env = Rejected Nullish ->
   snd (checkFunction (Java8AvailableRequirement f) env) = RejectedTypeError) /\
  (fetchAndroidSDKPlatformToolsLocation env = Rejected Nullish ->
   snd (checkFunction (AndroidSDKPlatformToolsInstalledRequirement f nf) env)
   = RejectedTypeError).
Proof.
  unfold_m; split; intros H; rewrite H; reflexivity.
Qed.
